(** * A shallow embedding of the SamTools service (samtools_service.c)

    The model covers the scaffold fetcher [GetScaffoldData], the index
    resolver [GetSelectedIndexData], the configuration loader
    [GetSamToolsServiceConfig] and the request handler [RunSamToolsService].
    The collaborators of the grassroots core and of htslib (fai_load,
    fai_fetch, AppendToByteBuffer, RunPairedServices, ...) are
    oracles carried by an environment record. *)

From Stdlib Require Import List Ascii String ZArith Lia Bool Arith.
Import ListNotations.
Open Scope list_scope.
Set Warnings "-register-all".

(** ** Bytes and buffers *)

Definition bytes := list ascii.

Definition NL : ascii := "010"%char.
Definition NUL : ascii := "000"%char.

Definition bytes_of (s : string) : bytes := list_ascii_of_string s.

(** Reading [n] bytes at offset [off] of a block of memory, as
    [AppendToByteBuffer (buffer_p, current_p, n)] does with
    [current_p = base + off]. *)
Definition read (mem : bytes) (off n : nat) : bytes :=
  firstn n (skipn off mem).

(** [strcmp (p, s) == 0] for a C string [p] that is tested for NULL
    first: a NULL pointer never compares equal. *)
Definition opt_str_eqb (p : option string) (s : string) : bool :=
  match p with
  | Some t => String.eqb t s
  | None => false
  end.

(** ** The random-access index (htslib's faidx, an external library) *)

(** A loaded index maps scaffold names to their sequences. *)
Definition faidx := list (string * bytes).

Fixpoint fai_fetch (fai : faidx) (name : string) : option bytes :=
  match fai with
  | [] => None
  | (n, s) :: rest => if String.eqb n name then Some s else fai_fetch rest name
  end.

(** The environment of a fetch: what [fai_load] finds for each file name
    (a C string that may be NULL, hence [option string]), and
    the heap bytes lying after the NUL terminator of the string that
    [fai_fetch] allocates (read only when the code reads past the end of
    the fetched sequence). *)
Record fetch_env := {
  fai_load : option string -> option faidx;
  heap_after : bytes
}.

(** The memory block returned by [fai_fetch]: the sequence and its NUL
    terminator (the bytes of the C string it allocates), then whatever
    lies beyond. Reading past the terminator is undefined behaviour in C
    and may fault; [heap_after] stands for one possible outcome only, so
    the general theorems on the bytes written assume every read stays
    inside [seq ++ [NUL]]. *)
Definition fetched_block (E : fetch_env) (seq : bytes) : bytes :=
  seq ++ NUL :: heap_after E.

(** ** State of a fetch

    [buf] is the ByteBuffer, [fai_log] records the index acquisitions and
    releases, [append_fails] is the oracle deciding, call by call, whether
    an append to the buffer fails (an exhausted list means success). *)
Inductive fai_event := FaiLoad | FaiDestroy.

Record state := mkState {
  buf : bytes;
  fai_log : list fai_event;
  append_fails : list bool
}.

Definition M (A : Type) := state -> A * state.

Definition ret {A} (a : A) : M A := fun s => (a, s).

Definition bind {A B} (m : M A) (f : A -> M B) : M B :=
  fun s => let (a, s') := m s in f a s'.

Notation "x <- m ;; k" := (bind m (fun x => k))
  (at level 61, m at next level, right associativity).

(** [AppendToByteBuffer]: one call, one outcome of the oracle; on
    success the bytes are appended. *)
Definition AppendToByteBuffer (data : bytes) : M bool :=
  fun s =>
    match append_fails s with
    | true :: rest => (false, mkState (buf s) (fai_log s) rest)
    | false :: rest => (true, mkState (buf s ++ data) (fai_log s) rest)
    | [] => (true, mkState (buf s ++ data) (fai_log s) [])
    end.

Definition log_fai (e : fai_event) : M unit :=
  fun s => (tt, mkState (buf s) (fai_log s ++ [e]) (append_fails s)).

(** [AppendStringsToByteBuffer (buffer_p, s1, ..., sn, NULL)] of the
    grassroots core appends the strings one at a time, each with its own
    append, and stops at the first failure: the strings appended before it
    stay in the buffer. *)
Fixpoint AppendStringsToByteBuffer (pieces : list bytes) : M bool :=
  match pieces with
  | [] => ret true
  | p :: rest =>
      ok <- AppendToByteBuffer p ;;
      if ok then AppendStringsToByteBuffer rest else ret false
  end.

(** The strings of [AppendStringsToByteBuffer (buffer_p, ">",
    scaffold_name_s, "\n", NULL)], and the header line they make. *)
Definition header_pieces (scaffold_name : string) : list bytes :=
  [bytes_of ">"; bytes_of scaffold_name; [NL]].

Definition header (scaffold_name : string) : bytes :=
  bytes_of ">" ++ bytes_of scaffold_name ++ [NL].

(** ** [GetScaffoldData] *)

(** The [while (loop_flag && success_flag)] loop. [i] is the offset of
    [current_p] in the sequence; the result is [(success_flag, i)].
    Each iteration that goes on advances [i] by [w >= 1] while
    [i < seq_len], so [S seq_len] rounds of fuel are never exhausted.
    The C [int] arithmetic [i + break_index] is taken without overflow:
    the model is exact while [seq_len + break_index <= INT_MAX], which the
    general theorems on the wrapped output assume. *)
Fixpoint wrap_loop (fuel : nat) (mem : bytes) (seq_len w i : nat)
  : M (bool * nat) :=
  match fuel with
  | O => ret (true, i)
  | S fuel' =>
      ok <- AppendToByteBuffer (read mem i w) ;;
      if ok then
        ok' <- AppendToByteBuffer [NL] ;;
        if ok' then
          if i + w <? seq_len then wrap_loop fuel' mem seq_len w (i + w)
          else ret (true, i)
        else ret (false, i)
      else ret (false, i)
  end.

(** The [if (break_index > 0)] branch: the loop, then the tail step. *)
Definition wrap_sequence (mem : bytes) (seq_len w : nat) : M bool :=
  r <- wrap_loop (S seq_len) mem seq_len w 0 ;;
  let (success_flag, i) := r in
  if success_flag then
    if i <? seq_len then
      ok <- AppendToByteBuffer (read mem i (seq_len - i)) ;;
      if ok then AppendToByteBuffer [NL] else ret false
    else ret true
  else ret false.

(** The body of [GetScaffoldData] between [fai_load] and [fai_destroy]:
    header, [fai_fetch], then the wrapped or unwrapped sequence. *)
Definition format_scaffold (E : fetch_env) (fai : faidx) (scaffold_name_s : string)
  (break_index : Z) : M bool :=
  ok <- AppendStringsToByteBuffer (header_pieces scaffold_name_s) ;;
  if ok then
    match fai_fetch fai scaffold_name_s with
    | Some seq =>
        let mem := fetched_block E seq in
        let seq_len := List.length seq in
        if (0 <? break_index)%Z
        then wrap_sequence mem seq_len (Z.to_nat break_index)
        else AppendToByteBuffer (read mem 0 seq_len)
    | None => ret false
    end
  else ret false.

Definition GetScaffoldData (E : fetch_env) (filename_s : option string)
  (scaffold_name_s : string)
  (break_index : Z) : M bool :=
  fun s0 =>
    match fai_load E filename_s with
    | None => (false, s0)
    | Some fai =>
        (_ <- log_fai FaiLoad ;;
         success_flag <- format_scaffold E fai scaffold_name_s break_index ;;
         _ <- log_fai FaiDestroy ;;
         ret success_flag) s0
    end.

(** The spec's example index. *)
Definition chr1A_seq : bytes := bytes_of "ACGTACGTACGTACGTACGTACGTA".

Definition wheat_env : fetch_env := {|
  fai_load := fun f => if opt_str_eqb f "/data/wheatA.fa"%string
                       then Some [("chr1A"%string, chr1A_seq)] else None;
  heap_after := bytes_of "XXXXXXXXXXXXXXXXXXXXXXXXXXXXXXXXXXXXXXXXXXXXXXXXXXXXXXXXXXXX"
|}.

Definition empty_state : state := mkState [] [] [].



(** ** Reading the output *)

Fixpoint remove_nl (b : bytes) : bytes :=
  match b with
  | [] => []
  | c :: rest => if Ascii.eqb c NL then remove_nl rest else c :: remove_nl rest
  end.


(** A one-scaffold index over the file "/s.fa". *)
Definition one_env (name : string) (seq : bytes) : fetch_env := {|
  fai_load := fun f => if opt_str_eqb f "/s.fa"%string then Some [(name, seq)] else None;
  heap_after := []
|}.

(** A computation that leaves the index log alone. *)
Definition keeps_log {A} (m : M A) : Prop :=
  forall s, fai_log (snd (m s)) = fai_log s.

(** A computation that only appends to the buffer. *)
Definition buf_grows {A} (m : M A) : Prop :=
  forall s, exists sfx, buf (snd (m s)) = buf s ++ sfx.

(** ** Index registry and resolution *)

Record IndexData := mkIndexData {
  id_blast_db_name_s : option string;
  id_fasta_filename_s : option string
}.

(** The [while (i > 0)] scan of [GetSelectedIndexData] over the
    [stsd_index_data_size] entries; the result is the offset of the
    returned pointer from [stsd_index_data_p]. The Fasta file is checked
    before the Blast database, each only when present. *)
Fixpoint scan_index_data (index_s : string) (entries : list IndexData) : option nat :=
  match entries with
  | [] => None
  | d :: rest =>
      if opt_str_eqb (id_fasta_filename_s d) index_s then Some 0
      else if opt_str_eqb (id_blast_db_name_s d) index_s then Some 0
      else option_map S (scan_index_data index_s rest)
  end.

(** [index_param] is the lookup of the index parameter: [None] when
    [GetCurrentStringParameterValueFromParameterSet] fails, [Some None]
    when it yields a NULL string. *)
Definition GetSelectedIndexData (stsd_index_data : list IndexData)
  (index_param : option (option string)) : option nat :=
  match index_param with
  | Some (Some index_s) => scan_index_data index_s stsd_index_data
  | _ => None
  end.

(** ** Configuration (jansson values) *)

Inductive json :=
| JString (s : string)
| JNumber (z : Z)
| JNull
| JArray (items : list json)
| JObject (members : list (string * json)).

Fixpoint assoc_get (key : string) (members : list (string * json)) : option json :=
  match members with
  | [] => None
  | (k, v) :: rest => if String.eqb k key then Some v else assoc_get key rest
  end.

Definition json_object_get (j : json) (key : string) : option json :=
  match j with
  | JObject members => assoc_get key members
  | _ => None
  end.

Definition GetJSONString (j : json) (key : string) : option string :=
  match json_object_get j key with
  | Some (JString s) => Some s
  | _ => None
  end.

Definition BLASTDB_S : string := "Blast database".
Definition FASTA_FILENAME_S : string := "Fasta".

Definition index_data_of_json (j : json) : IndexData :=
  mkIndexData (GetJSONString j BLASTDB_S) (GetJSONString j FASTA_FILENAME_S).

(** [GetSamToolsServiceConfig]: the registry read from "index_files",
    an array of objects or a single object. [AllocMemoryArray] is the
    oracle telling whether the allocation of an array of that many
    [IndexData] succeeds; when it returns NULL the function returns false
    ([None]). *)
Definition GetSamToolsServiceConfig (AllocMemoryArray : nat -> bool)
  (sd_config : option json) : option (list IndexData) :=
  match sd_config with
  | None => None
  | Some config =>
      match json_object_get config "index_files" with
      | Some (JArray items) =>
          if AllocMemoryArray (List.length items)
          then Some (map index_data_of_json items) else None
      | Some (JObject members) =>
          if AllocMemoryArray 1
          then Some [index_data_of_json (JObject members)] else None
      | _ => None
      end
  end.

(** ** Request handling *)

Inductive OperationStatus := OS_STARTED | OS_FAILED | OS_SUCCEEDED.

(** A job: its name, the statuses set on it in order, its error messages
    and its results. *)
Record ServiceJob := mkServiceJob {
  sj_name : string;
  sj_statuses : list OperationStatus;
  sj_errors : list string;
  sj_results : list bytes
}.

Definition SetServiceJobStatus (st : OperationStatus) (j : ServiceJob) : ServiceJob :=
  mkServiceJob (sj_name j) (sj_statuses j ++ [st]) (sj_errors j) (sj_results j).

(** [ok] is the outcome of the call: when it fails the job is left as
    it was. *)
Definition AddGeneralErrorMessageToServiceJob (ok : bool) (msg : string) (j : ServiceJob)
  : ServiceJob :=
  if ok then mkServiceJob (sj_name j) (sj_statuses j) (sj_errors j ++ [msg]) (sj_results j)
  else j.

Definition AddResultToServiceJob (r : bytes) (j : ServiceJob) : ServiceJob :=
  mkServiceJob (sj_name j) (sj_statuses j) (sj_errors j) (sj_results j ++ [r]).

(** [GetByteBufferData] hands the buffer to [json_string] as a C
    string: the bytes before its first NUL. *)
Fixpoint c_string (b : bytes) : bytes :=
  match b with
  | [] => []
  | c :: rest => if Ascii.eqb c NUL then [] else c :: c_string rest
  end.

Definition S_DEFAULT_LINE_BREAK_INDEX : Z := 60.

(** The [uint32] line-break parameter passed as the [int] [break_index]. *)
Definition int_of_uint32 (v : Z) : Z :=
  if (v <? 2 ^ 31)%Z then v else (v - 2 ^ 32)%Z.

(** The outcomes of the grassroots-core calls made by
    [RunSamToolsService], and the jobs run by [RunPairedServices] (an
    external collaborator) when no local index matches. *)
Record run_env := {
  jobset_alloc_ok : bool;
  index_param : option (option string);
  scaffold_param : option (option string);
  line_break_param : option Z;
  buffer_alloc_ok : bool;
  job_create_ok : bool;
  json_sequence_ok : bool;
  result_json_ok : bool;
  add_result_ok : bool;
  concat_ok : bool;
  add_error_ok : bool;
  paired_jobs : list ServiceJob;
  fetch_env_of : fetch_env;
  fetch_oracle : list bool
}.

(** [index_p ? *index_p : S_DEFAULT_LINE_BREAK_INDEX], passed as the
    [int break_index] of [GetScaffoldData]. *)
Definition line_break_of (R : run_env) : Z :=
  match line_break_param R with
  | Some v => int_of_uint32 v
  | None => S_DEFAULT_LINE_BREAK_INDEX
  end.

(** The part of [RunSamToolsService] after the job is created: status
    Started, then Failed ("Assume failure"), then Succeeded only when the
    scaffold is fetched and the result attached. The result carries the
    buffer as the C string [GetByteBufferData] returns, wrapped by
    [json_string] ([json_sequence_ok]) and [GetDataResourceAsJSONByParts]
    ([result_json_ok]). [concat_ok] is the outcome of [ConcatenateStrings],
    [add_error_ok] that of [AddGeneralErrorMessageToServiceJob]. *)
Definition run_job (R : run_env) (selected : IndexData) (scaffold_s : string)
  (job : ServiceJob) : ServiceJob :=
  let break_index := line_break_of R in
  let job := SetServiceJobStatus OS_FAILED (SetServiceJobStatus OS_STARTED job) in
  let (ok, st) := GetScaffoldData (fetch_env_of R) (id_fasta_filename_s selected)
                    scaffold_s break_index (mkState [] [] (fetch_oracle R)) in
  if ok then
    if json_sequence_ok R && result_json_ok R then
      if add_result_ok R
      then SetServiceJobStatus OS_SUCCEEDED (AddResultToServiceJob (c_string (buf st)) job)
      else AddGeneralErrorMessageToServiceJob (add_error_ok R) "Failed to add result" job
    else
      let prefix_s := "Create sequence error"%string in
      AddGeneralErrorMessageToServiceJob (add_error_ok R)
        (if concat_ok R then (prefix_s ++ scaffold_s)%string else prefix_s) job
  else AddGeneralErrorMessageToServiceJob (add_error_ok R) "Failed to get scaffold data" job.

(** [RunSamToolsService]: the job set it returns ([None] when it cannot
    be allocated). *)
Definition RunSamToolsService (stsd_index_data : list IndexData) (R : run_env)
  : option (list ServiceJob) :=
  if jobset_alloc_ok R then
    match GetSelectedIndexData stsd_index_data (index_param R) with
    | Some k =>
        match nth_error stsd_index_data k, scaffold_param R with
        | Some selected, Some (Some scaffold_s) =>
            if buffer_alloc_ok R && job_create_ok R then
              Some [run_job R selected scaffold_s (mkServiceJob scaffold_s [] [] [])]
            else Some []
        | _, _ => Some []
        end
    | None =>
        (* RunPairedServices; when it runs no job only an error is logged *)
        Some (paired_jobs R)
    end
  else None.

(** ** The index parameter offered to clients ([SetUpIndexesParamater]) *)

(** The string parameter: its default value and its options, each a
    (value, description) pair in the order they were added. *)
Record IndexesParameter := mkIndexesParameter {
  ip_default : option string;
  ip_options : list (option string * option string)
}.

(** [provider_s] is [GetServerProviderName] when the service has paired
    services and NULL otherwise; [CreateDatabaseName] (grassroots core)
    may fail; [param_create_ok] is the outcome of
    [EasyCreateAndAddStringParameterToParameterSet]; [option_add_fails]
    the outcomes of the successive [CreateAndAddStringParameterOption]
    calls (true for a failure, an exhausted list means success);
    [paired_options] the options [AddPairedIndexParameters] adds. *)
Record setup_env := {
  provider_s : option string;
  CreateDatabaseName : option string -> string -> option string;
  param_create_ok : bool;
  option_add_fails : list bool;
  paired_options : list (option string * option string)
}.

(** The description given to an entry's option. *)
Definition option_description (S : setup_env) (d : IndexData) : option string :=
  match provider_s S with
  | Some provider =>
      match CreateDatabaseName S (id_blast_db_name_s d) provider with
      | Some db_s => Some db_s
      | None => id_blast_db_name_s d
      end
  | None => id_blast_db_name_s d
  end.

(** The [for] loop adding one option per entry, its value the Fasta file;
    the first failure ends the loop and the function returns NULL. *)
Fixpoint add_index_options (S : setup_env) (entries : list IndexData) (fails : list bool)
  : option (list (option string * option string)) :=
  match entries with
  | [] => Some []
  | d :: rest =>
      let opt := (id_fasta_filename_s d, option_description S d) in
      match fails with
      | true :: _ => None
      | false :: fails' => option_map (cons opt) (add_index_options S rest fails')
      | [] => option_map (cons opt) (add_index_options S rest [])
      end
  end.

Definition SetUpIndexesParamater (S : setup_env) (entries : list IndexData)
  : option IndexesParameter :=
  match entries with
  | [] => None
  | d0 :: _ =>
      if param_create_ok S then
        match add_index_options S entries (option_add_fails S) with
        | Some opts => Some (mkIndexesParameter (id_blast_db_name_s d0) (opts ++ paired_options S))
        | None => None
        end
      else None
  end.

(** A configuration entry as written in the "index_files" array, each
    key present only when given. *)
Definition index_file_json (blast fasta : option string) : json :=
  JObject (match blast with Some b => [(BLASTDB_S, JString b)] | None => [] end
           ++ match fasta with Some f => [(FASTA_FILENAME_S, JString f)] | None => [] end).

(** The spec's example registry and requests. *)
Definition wheat_registry : list IndexData :=
  [mkIndexData (Some "wheatA"%string) (Some "/data/wheatA.fa"%string)].

Definition wheat_request (index_s : string) (paired : list ServiceJob) : run_env := {|
  jobset_alloc_ok := true;
  index_param := Some (Some index_s);
  scaffold_param := Some (Some "chr1A"%string);
  line_break_param := Some 10%Z;
  buffer_alloc_ok := true;
  job_create_ok := true;
  json_sequence_ok := true;
  result_json_ok := true;
  add_result_ok := true;
  concat_ok := true;
  add_error_ok := true;
  paired_jobs := paired;
  fetch_env_of := wheat_env;
  fetch_oracle := []
|}.

(** The spec's resolver, after its words: NotFound on an empty or absent
    request, otherwise the first entry matching on either key. *)
Definition resolve_spec (entries : list IndexData) (requested : option (option string))
  : option nat :=
  match requested with
  | Some (Some r) => if String.eqb r "" then None else scan_index_data r entries
  | _ => None
  end.

Definition wheat_setup : setup_env := {|
  provider_s := None;
  CreateDatabaseName := fun _ _ => None;
  param_create_ok := true;
  option_add_fails := [];
  paired_options := []
|}.

(** A one-scaffold registry over "/s.fa" and a request for its scaffold
    "s" ("ACG") at line break 2, every core call succeeding. *)
Definition acg_registry : list IndexData :=
  [mkIndexData (Some "db"%string) (Some "/s.fa"%string)].

Definition acg_request : run_env := {|
  jobset_alloc_ok := true;
  index_param := Some (Some "/s.fa"%string);
  scaffold_param := Some (Some "s"%string);
  line_break_param := Some 2%Z;
  buffer_alloc_ok := true;
  job_create_ok := true;
  json_sequence_ok := true;
  result_json_ok := true;
  add_result_ok := true;
  concat_ok := true;
  add_error_ok := true;
  paired_jobs := [];
  fetch_env_of := one_env "s" (bytes_of "ACG");
  fetch_oracle := []
|}.

(** * Properties *)

(** The spec's example at width 10: the third line reads 10 bytes from
    offset 20 of a 26-byte string, past its allocation (undefined
    behaviour in C); the bytes shown after the NUL are [heap_after]. *)
Example wheat_wrap10 :
  GetScaffoldData wheat_env (Some "/data/wheatA.fa"%string) "chr1A" 10 empty_state
  = (true, mkState (bytes_of ">chr1A
ACGTACGTAC
GTACGTACGT
ACGTA" ++ [NUL] ++ bytes_of "XXXX
ACGTA
") [FaiLoad; FaiDestroy] []).
Proof. vm_compute. reflexivity. Qed.

(** ** Computations that leave the index log alone *)


Lemma ret_keeps_log {A} (a : A) : keeps_log (ret a).
Proof. intros s; reflexivity. Qed.

Lemma bind_keeps_log {A B} (m : M A) (f : A -> M B) :
  keeps_log m -> (forall a, keeps_log (f a)) -> keeps_log (bind m f).
Proof.
  intros Hm Hf s; unfold bind.
  specialize (Hm s); destruct (m s) as [a s']; simpl in *.
  rewrite Hf; exact Hm.
Qed.

Lemma append_keeps_log d : keeps_log (AppendToByteBuffer d).
Proof.
  intros s; unfold AppendToByteBuffer.
  destruct (append_fails s) as [|[|] ?]; reflexivity.
Qed.

Create HintDb keeps.
#[local] Hint Resolve ret_keeps_log bind_keeps_log append_keeps_log : keeps.

Lemma AppendStrings_keeps_log ps : keeps_log (AppendStringsToByteBuffer ps).
Proof.
  induction ps as [|p ps IH]; simpl; auto with keeps.
  apply bind_keeps_log; auto with keeps; intros [|]; auto with keeps.
Qed.

#[local] Hint Resolve AppendStrings_keeps_log : keeps.

(** The appends of a call that reports success all took place. *)
Lemma append_true d s s' :
  AppendToByteBuffer d s = (true, s') -> buf s' = buf s ++ d /\ fai_log s' = fai_log s.
Proof.
  unfold AppendToByteBuffer; destruct (append_fails s) as [|[|] ?];
    intros H; inversion H; subst; simpl; auto.
Qed.

Lemma AppendStrings_true ps s s' :
  AppendStringsToByteBuffer ps s = (true, s') ->
  buf s' = buf s ++ List.concat ps /\ fai_log s' = fai_log s.
Proof.
  revert s; induction ps as [|p ps IH]; intros s H; simpl in H.
  - injection H as <-; simpl; now rewrite app_nil_r.
  - unfold bind in H.
    destruct (AppendToByteBuffer p s) as [[|] s1] eqn:Ha; [|discriminate H].
    apply append_true in Ha as [Hb Hl]. apply IH in H as [Hb' Hl'].
    simpl; rewrite Hb', Hb, Hl', Hl, app_assoc; auto.
Qed.

Lemma header_concat n : List.concat (header_pieces n) = header n.
Proof. unfold header_pieces, header; simpl; auto. Qed.

Lemma GetScaffoldData_loaded E filename_s scaffold_name_s break_index fai s :
  fai_load E filename_s = Some fai ->
  GetScaffoldData E filename_s scaffold_name_s break_index s =
  let (ok, s2) := format_scaffold E fai scaffold_name_s break_index
                    (mkState (buf s) (fai_log s ++ [FaiLoad]) (append_fails s)) in
  (ok, mkState (buf s2) (fai_log s2 ++ [FaiDestroy]) (append_fails s2)).
Proof.
  intros H; unfold GetScaffoldData; rewrite H.
  unfold bind, log_fai, ret; simpl.
  destruct (format_scaffold _ _ _ _ _); reflexivity.
Qed.


Lemma wrap_loop_keeps_log fuel mem L w i :
  keeps_log (wrap_loop fuel mem L w i).
Proof.
  revert i; induction fuel as [|fuel IH]; intros i; simpl; auto with keeps.
  apply bind_keeps_log; auto with keeps; intros [|].
  - apply bind_keeps_log; auto with keeps; intros [|]; auto with keeps.
    destruct (i + w <? L); auto with keeps.
  - auto with keeps.
Qed.

Lemma wrap_sequence_keeps_log mem L w : keeps_log (wrap_sequence mem L w).
Proof.
  unfold wrap_sequence; apply bind_keeps_log.
  - apply wrap_loop_keeps_log.
  - intros [[|] i]; auto with keeps.
    destruct (i <? L); auto with keeps.
    apply bind_keeps_log; auto with keeps; intros [|]; auto with keeps.
Qed.

Lemma format_scaffold_keeps_log E fai n w : keeps_log (format_scaffold E fai n w).
Proof.
  unfold format_scaffold; apply bind_keeps_log; auto with keeps.
  intros [|]; auto with keeps.
  destruct (fai_fetch fai n); auto with keeps.
  destruct (0 <? w)%Z; auto using wrap_sequence_keeps_log with keeps.
Qed.

(** C9: once [fai_load] succeeds, the index is released ([fai_destroy])
    before [GetScaffoldData] returns, on every path; the log gains exactly
    one acquisition followed by one release, and nothing when the load
    fails. *)
Theorem GetScaffoldData_releases_index E filename_s scaffold_name_s break_index s :
  fai_log (snd (GetScaffoldData E filename_s scaffold_name_s break_index s))
  = fai_log s ++ match fai_load E filename_s with
                 | Some _ => [FaiLoad; FaiDestroy]
                 | None => []
                 end.
Proof.
  unfold GetScaffoldData.
  destruct (fai_load E filename_s) as [fai|]; [|simpl; now rewrite app_nil_r].
  unfold bind at 1; simpl.
  unfold bind at 1.
  set (s1 := {| buf := buf s; fai_log := fai_log s ++ [FaiLoad];
                append_fails := append_fails s |}).
  pose proof (format_scaffold_keeps_log E fai scaffold_name_s break_index s1) as H.
  destruct (format_scaffold E fai scaffold_name_s break_index s1) as [b s2].
  simpl in *. rewrite H. subst s1; simpl. now rewrite <- app_assoc.
Qed.

(** C10: when [fai_load] fails, [GetScaffoldData] fails and leaves the
    whole state, the output buffer included, exactly as it was. *)
Theorem GetScaffoldData_load_failure_frame E filename_s scaffold_name_s break_index s :
  fai_load E filename_s = None ->
  GetScaffoldData E filename_s scaffold_name_s break_index s = (false, s).
Proof. intros H; unfold GetScaffoldData; now rewrite H. Qed.

Lemma GetScaffoldData_load_failure_frame_witness :
  fai_load wheat_env (Some "/data/missing.fa"%string) = None /\
  GetScaffoldData wheat_env (Some "/data/missing.fa"%string) "chr1A" 60
    (mkState (bytes_of "kept") [] []) = (false, mkState (bytes_of "kept") [] []).
Proof.
  split; [reflexivity|].
  apply GetScaffoldData_load_failure_frame; reflexivity.
Defined.

(** C1: one-byte sequence "A" wrapped at width 1. The loop emits "A\n",
    stops without advancing [i], and the tail step ([seq_len > i], 1 > 0)
    emits "A\n" again: the body holds two lines and two sequence bytes. *)
Theorem wrap_roundtrip_fails_A_w1 :
  GetScaffoldData (one_env "s" (bytes_of "A")) (Some "/s.fa"%string) "s" 1 empty_state
  = (true, mkState (header "s" ++ bytes_of "A" ++ [NL] ++ bytes_of "A" ++ [NL])
                   [FaiLoad; FaiDestroy] [])
  /\ remove_nl (bytes_of "A" ++ [NL] ++ bytes_of "A" ++ [NL]) <> bytes_of "A".
Proof. split; [vm_compute; reflexivity | discriminate]. Qed.

(** C2: wrap width 3 equal to the length of "ACG". The wrapped body is
    "ACG\nACG\n", the unwrapped one (width 0) is "ACG". *)
Theorem wrap_ge_len_fails_ACG_w3 :
  GetScaffoldData (one_env "s" (bytes_of "ACG")) (Some "/s.fa"%string) "s" 3 empty_state
  = (true, mkState (header "s" ++ bytes_of "ACG" ++ [NL] ++ bytes_of "ACG" ++ [NL])
                   [FaiLoad; FaiDestroy] [])
  /\ GetScaffoldData (one_env "s" (bytes_of "ACG")) (Some "/s.fa"%string) "s" 0 empty_state
  = (true, mkState (header "s" ++ bytes_of "ACG") [FaiLoad; FaiDestroy] []).
Proof. split; vm_compute; reflexivity. Qed.

(** C3: an empty scaffold wrapped at width 1. The loop body runs once
    and copies one byte from the fetched block (its NUL terminator) and a
    newline, so the buffer is not the header alone. *)
Theorem empty_scaffold_fails_w1 :
  GetScaffoldData (one_env "s" []) (Some "/s.fa"%string) "s" 1 empty_state
  = (true, mkState (header "s" ++ [NUL; NL]) [FaiLoad; FaiDestroy] [])
  /\ header "s" ++ [NUL; NL] <> header "s".
Proof.
  split; [vm_compute; reflexivity|].
  intros H; apply (f_equal (@List.length ascii)) in H.
  rewrite length_app in H; simpl in H; lia.
Qed.

(** C4: "ACGT" wrapped at width 2 (an exact multiple). The loop ends at
    [i = 2] with "AC\nGT\n" written, and the tail step appends the last
    block "GT\n" a second time. *)
Theorem exact_multiple_fails_ACGT_w2 :
  GetScaffoldData (one_env "s" (bytes_of "ACGT")) (Some "/s.fa"%string) "s" 2 empty_state
  = (true, mkState (header "s" ++ bytes_of "AC" ++ [NL] ++ bytes_of "GT" ++ [NL]
                    ++ bytes_of "GT" ++ [NL]) [FaiLoad; FaiDestroy] []).
Proof. vm_compute; reflexivity. Qed.

(** With [break_index <= 0] (so with wrap width 0), a successful fetch
    appends the header and then the sequence, with no newline after it. *)
Theorem unwrapped_record_has_no_final_newline E filename_s scaffold_name_s
  break_index fai seq s s' :
  (break_index <= 0)%Z ->
  fai_load E filename_s = Some fai ->
  fai_fetch fai scaffold_name_s = Some seq ->
  GetScaffoldData E filename_s scaffold_name_s break_index s = (true, s') ->
  buf s' = buf s ++ header scaffold_name_s ++ seq.
Proof.
  intros Hw Hload Hfetch Hrun.
  assert (Hb : (0 <? break_index)%Z = false) by (apply Z.ltb_ge; lia).
  assert (Hr : read (fetched_block E seq) 0 (List.length seq) = seq).
  { unfold read, fetched_block; simpl. rewrite firstn_app, Nat.sub_diag.
    now rewrite firstn_all, app_nil_r. }
  rewrite (GetScaffoldData_loaded _ _ _ _ _ _ Hload) in Hrun.
  destruct (format_scaffold E fai scaffold_name_s break_index _) as [ok s2] eqn:Hf.
  injection Hrun as -> <-. cbn [buf].
  unfold format_scaffold, bind at 1 in Hf.
  destruct (AppendStringsToByteBuffer (header_pieces scaffold_name_s) _) as [[|] s1] eqn:Hh;
    [|unfold ret in Hf; discriminate Hf].
  rewrite Hfetch, Hb, Hr in Hf.
  apply AppendStrings_true in Hh as [Hh _]; apply append_true in Hf as [Hf _].
  rewrite Hf, Hh, header_concat; cbn [buf]. now rewrite <- app_assoc.
Qed.

Lemma unwrapped_record_has_no_final_newline_witness :
  buf (snd (GetScaffoldData wheat_env (Some "/data/wheatA.fa"%string) "chr1A" 0 empty_state))
  = buf empty_state ++ header "chr1A" ++ chr1A_seq.
Proof.
  apply (unwrapped_record_has_no_final_newline wheat_env (Some "/data/wheatA.fa"%string) "chr1A" 0
           [("chr1A"%string, chr1A_seq)] chr1A_seq empty_state
           (snd (GetScaffoldData wheat_env (Some "/data/wheatA.fa"%string) "chr1A" 0 empty_state)));
    [lia | reflexivity | reflexivity | vm_compute; reflexivity].
Defined.

(** C5, the spec's example: wrap width 0 gives ">chr1A\n" followed by the
    25 bases, not followed by a newline. *)
Theorem wheat_unwrapped_output :
  buf (snd (GetScaffoldData wheat_env (Some "/data/wheatA.fa"%string) "chr1A" 0 empty_state))
  = header "chr1A" ++ chr1A_seq
  /\ header "chr1A" ++ chr1A_seq <> header "chr1A" ++ chr1A_seq ++ [NL].
Proof.
  split; [vm_compute; reflexivity|].
  intros H; apply (f_equal (@List.length ascii)) in H.
  rewrite !length_app in H; simpl in H; lia.
Qed.

(** ** Index resolution *)

Lemma opt_str_eqb_true p s : opt_str_eqb p s = true <-> p = Some s.
Proof.
  destruct p as [t|]; simpl; [|split; discriminate].
  rewrite String.eqb_eq; split; congruence.
Qed.

Lemma opt_str_eqb_false p s : opt_str_eqb p s = false <-> p <> Some s.
Proof.
  rewrite <- opt_str_eqb_true; destruct (opt_str_eqb p s); split; congruence.
Qed.

(** The scan returns the first entry, in registry order, whose Fasta file
    or Blast database is present and equal to the request. *)
Lemma scan_index_data_first r entries k :
  scan_index_data r entries = Some k <->
  exists e, nth_error entries k = Some e /\
    (id_fasta_filename_s e = Some r \/ id_blast_db_name_s e = Some r) /\
    forall j e', j < k -> nth_error entries j = Some e' ->
      id_fasta_filename_s e' <> Some r /\ id_blast_db_name_s e' <> Some r.
Proof.
  revert k; induction entries as [|d rest IH]; intros k; simpl.
  - split; [discriminate|]. intros (e & He & _); destruct k; discriminate.
  - destruct (opt_str_eqb (id_fasta_filename_s d) r) eqn:Hf;
      [|destruct (opt_str_eqb (id_blast_db_name_s d) r) eqn:Hb].
    + apply opt_str_eqb_true in Hf. split.
      * intros H; injection H as <-. exists d; split; [reflexivity|].
        split; [now left|]. intros j e' Hj; lia.
      * intros (e & He & Hm & Hfirst). destruct k as [|k]; [reflexivity|].
        exfalso; refine (proj1 (Hfirst 0 d _ eq_refl) Hf); lia.
    + apply opt_str_eqb_true in Hb. split.
      * intros H; injection H as <-. exists d; split; [reflexivity|].
        split; [now right|]. intros j e' Hj; lia.
      * intros (e & He & Hm & Hfirst). destruct k as [|k]; [reflexivity|].
        exfalso; refine (proj2 (Hfirst 0 d _ eq_refl) Hb); lia.
    + apply opt_str_eqb_false in Hf, Hb. split.
      * destruct (scan_index_data r rest) as [k'|] eqn:Hs; simpl; [|discriminate].
        intros H; injection H as <-.
        destruct (proj1 (IH k') eq_refl) as (e & He & Hm & Hfirst).
        exists e; split; [exact He|]; split; [exact Hm|].
        intros [|j] e' Hj Hj'; simpl in Hj'.
        -- injection Hj' as <-; now split.
        -- apply (Hfirst j); [lia|exact Hj'].
      * intros (e & He & Hm & Hfirst). destruct k as [|k].
        -- simpl in He; injection He as <-; destruct Hm; contradiction.
        -- assert (Hk : scan_index_data r rest = Some k).
           { apply IH; exists e; split; [exact He|]; split; [exact Hm|].
             intros j e' Hj Hj'; apply (Hfirst (S j)); [lia|exact Hj']. }
           now rewrite Hk.
Qed.

(** C6, as stated, fails: an entry whose Blast database is the empty
    string (configuration [{"Blast database": "", "Fasta": "/data/a.fa"}])
    is returned for the empty request. *)
Theorem GetSelectedIndexData_empty_request_matches :
  GetSamToolsServiceConfig (fun _ => true)
    (Some (JObject [("index_files"%string,
                      JArray [JObject [(BLASTDB_S, JString "");
                                       (FASTA_FILENAME_S, JString "/data/a.fa")]])]))
  = Some [mkIndexData (Some ""%string) (Some "/data/a.fa"%string)]
  /\ GetSelectedIndexData [mkIndexData (Some ""%string) (Some "/data/a.fa"%string)]
       (Some (Some ""%string)) = Some 0
  /\ resolve_spec [mkIndexData (Some ""%string) (Some "/data/a.fa"%string)]
       (Some (Some ""%string)) = None.
Proof. repeat split; reflexivity. Qed.

(** C6, amended: [GetSelectedIndexData] is a pure function of the
    registry and of the index parameter. It returns [Some k] exactly when
    the parameter is present and non-NULL with value [r] and entry [k] is
    the first, in registry order, whose Fasta file or Blast database is
    present and string-equal to [r] (the empty string is not treated
    specially); otherwise it returns NULL. *)
Theorem GetSelectedIndexData_first_match entries index_param k :
  GetSelectedIndexData entries index_param = Some k <->
  exists r e, index_param = Some (Some r) /\ nth_error entries k = Some e /\
    (id_fasta_filename_s e = Some r \/ id_blast_db_name_s e = Some r) /\
    forall j e', j < k -> nth_error entries j = Some e' ->
      id_fasta_filename_s e' <> Some r /\ id_blast_db_name_s e' <> Some r.
Proof.
  destruct index_param as [[r|]|]; simpl.
  - rewrite scan_index_data_first. split.
    + intros (e & H); now exists r, e.
    + intros (r' & e & Hr & H); injection Hr as <-; now exists e.
  - split; [discriminate|]. intros (r & e & H & _); discriminate.
  - split; [discriminate|]. intros (r & e & H & _); discriminate.
Qed.

(** C7, as stated, fails: an entry configured without its "Fasta" field
    is still returned when its Blast database name is requested. *)
Theorem entry_without_fasta_is_resolved :
  GetSamToolsServiceConfig (fun _ => true)
    (Some (JObject [("index_files"%string,
                      JArray [JObject [(BLASTDB_S, JString "wheatA")]])]))
  = Some [mkIndexData (Some "wheatA"%string) None]
  /\ GetSelectedIndexData [mkIndexData (Some "wheatA"%string) None]
       (Some (Some "wheatA"%string)) = Some 0
  /\ nth_error [mkIndexData (Some "wheatA"%string) None] 0
     = Some (mkIndexData (Some "wheatA"%string) None).
Proof. repeat split; reflexivity. Qed.

(** C7, amended: an entry without a Fasta file is never matched by path;
    the resolver returns it only when its Blast database equals the
    request. *)
Theorem resolved_entry_without_fasta_matched_by_db entries r k e :
  GetSelectedIndexData entries (Some (Some r)) = Some k ->
  nth_error entries k = Some e ->
  id_fasta_filename_s e = None ->
  id_blast_db_name_s e = Some r.
Proof.
  simpl; intros Hs He Hf.
  apply scan_index_data_first in Hs as (e' & He' & Hm & _).
  rewrite He in He'; injection He' as <-.
  destruct Hm as [Hm|Hm]; [congruence|exact Hm].
Qed.

Lemma resolved_entry_without_fasta_matched_by_db_witness :
  id_blast_db_name_s (mkIndexData (Some "wheatA"%string) None) = Some "wheatA"%string.
Proof.
  apply (resolved_entry_without_fasta_matched_by_db
           [mkIndexData (Some "wheatA"%string) None] "wheatA" 0);
    reflexivity.
Defined.

(** ** Request handling *)

(** C8, as stated, fails: "unknownX" matches no entry of the registry and
    no peer store runs a job; the job set comes back empty, with no job
    in status Failed and no NoStoreAvailable error. *)
Theorem unknown_store_records_no_job :
  GetSelectedIndexData wheat_registry (index_param (wheat_request "unknownX" [])) = None
  /\ RunSamToolsService wheat_registry (wheat_request "unknownX" []) = Some [].
Proof. split; reflexivity. Qed.

(** C8, amended: on a local match the handler records at most one job.
    Its statuses are Started then Failed, followed by Succeeded only when
    [GetScaffoldData] succeeded for the resolved entry, the JSON sequence
    and result were built and [AddResultToServiceJob] attached the result;
    a job without Succeeded carries no result. Without a local match the
    job set is exactly the jobs the paired services ran (none when no peer
    ran). *)
Theorem RunSamToolsService_job_statuses entries R jobs :
  RunSamToolsService entries R = Some jobs ->
  (GetSelectedIndexData entries (index_param R) = None -> jobs = paired_jobs R) /\
  (forall k, GetSelectedIndexData entries (index_param R) = Some k ->
     List.length jobs <= 1 /\
     forall j, In j jobs ->
       (sj_statuses j = [OS_STARTED; OS_FAILED] /\ sj_results j = []) \/
       (sj_statuses j = [OS_STARTED; OS_FAILED; OS_SUCCEEDED] /\
        exists sel st,
          nth_error entries k = Some sel /\
          GetScaffoldData (fetch_env_of R) (id_fasta_filename_s sel) (sj_name j)
            (line_break_of R) (mkState [] [] (fetch_oracle R)) = (true, st) /\
          json_sequence_ok R = true /\ result_json_ok R = true /\
          add_result_ok R = true /\
          sj_results j = [c_string (buf st)])).
Proof.
  unfold RunSamToolsService; intros Hrun.
  destruct (jobset_alloc_ok R); [|discriminate].
  destruct (GetSelectedIndexData entries (index_param R)) as [k|] eqn:Hsel.
  - split; [discriminate|]. intros k' Hk; injection Hk as <-.
    destruct (nth_error entries k) as [sel|] eqn:Hnth;
      [|injection Hrun as <-; split; [simpl; lia|intros j []]].
    destruct (scaffold_param R) as [[sc|]|];
      [|injection Hrun as <-; split; [simpl; lia|intros j []]
       |injection Hrun as <-; split; [simpl; lia|intros j []]].
    destruct (buffer_alloc_ok R && job_create_ok R);
      [|injection Hrun as <-; split; [simpl; lia|intros j []]].
    injection Hrun as <-; split; [simpl; lia|].
    intros j [<-|[]]. unfold run_job.
    destruct (GetScaffoldData _ _ _ _ _) as [[|] st] eqn:Hget.
    + destruct (json_sequence_ok R) eqn:Hjs; [destruct (result_json_ok R) eqn:Hrj|];
        cbn [andb].
      * destruct (add_result_ok R) eqn:Har.
        -- right; split; [reflexivity|].
           exists sel, st; repeat split; auto.
        -- left; destruct (add_error_ok R); simpl; auto.
      * left; destruct (add_error_ok R); simpl; auto.
      * left; destruct (add_error_ok R); simpl; auto.
    + left; destruct (add_error_ok R); simpl; auto.
  - split; [intros _; now injection Hrun|]. discriminate.
Qed.

Lemma RunSamToolsService_job_statuses_witness :
  let j := run_job acg_request (hd (mkIndexData None None) acg_registry) "s"
             (mkServiceJob "s" [] [] []) in
  RunSamToolsService acg_registry acg_request = Some [j] /\
  List.length [j] <= 1 /\
  ((sj_statuses j = [OS_STARTED; OS_FAILED] /\ sj_results j = []) \/
   (sj_statuses j = [OS_STARTED; OS_FAILED; OS_SUCCEEDED] /\
    exists sel st,
      nth_error acg_registry 0 = Some sel /\
      GetScaffoldData (fetch_env_of acg_request) (id_fasta_filename_s sel) (sj_name j)
        (line_break_of acg_request) (mkState [] [] (fetch_oracle acg_request)) = (true, st) /\
      json_sequence_ok acg_request = true /\ result_json_ok acg_request = true /\
      add_result_ok acg_request = true /\
      sj_results j = [c_string (buf st)])).
Proof.
  intros j.
  assert (Hr : RunSamToolsService acg_registry acg_request = Some [j]) by reflexivity.
  destruct (proj2 (RunSamToolsService_job_statuses acg_registry acg_request [j] Hr) 0 eq_refl)
    as [Hlen Hj].
  split; [exact Hr|]. split; [exact Hlen|].
  exact (Hj j (or_introl eq_refl)).
Defined.

(** ** The wrap loop on exact multiples *)

Lemma append_no_fail d b lg :
  AppendToByteBuffer d (mkState b lg []) = (true, mkState (b ++ d) lg []).
Proof. reflexivity. Qed.

Lemma AppendStrings_no_fail ps b lg :
  AppendStringsToByteBuffer ps (mkState b lg [])
  = (true, mkState (b ++ List.concat ps) lg []).
Proof.
  revert b; induction ps as [|p ps IH]; intros b; simpl.
  - now rewrite app_nil_r.
  - unfold bind; rewrite append_no_fail, IH, app_assoc. reflexivity.
Qed.

Lemma read_app l x off n :
  off + n <= List.length l -> read (l ++ x) off n = read l off n.
Proof.
  intros H; unfold read.
  rewrite skipn_app, firstn_app, length_skipn.
  replace (n - (List.length l - off)) with 0 by lia.
  now rewrite firstn_O, app_nil_r.
Qed.

(** With no write failure, a loop started at [i] with [m] advances to go
    before [i + (m + 1) * w = seq_len] writes [m + 1] full blocks and
    stops at [i + m * w]. *)
Lemma wrap_loop_exact mem L w lg : forall m fuel i b,
  m < fuel -> i + S m * w = L -> 0 < w ->
  wrap_loop fuel mem L w i (mkState b lg [])
  = ((true, i + m * w),
     mkState (b ++ List.concat (map (fun t => read mem (i + t * w) w ++ [NL]) (seq 0 (S m))))
             lg []).
Proof.
  induction m as [|m IH]; intros fuel i b Hf HL Hw;
    (destruct fuel as [|fuel]; [lia|]); simpl wrap_loop;
    unfold bind; rewrite !append_no_fail.
  - replace (i + w <? L) with false by (symmetry; apply Nat.ltb_ge; lia).
    unfold ret; simpl. rewrite Nat.add_0_r, !app_nil_r, !app_assoc. reflexivity.
  - replace (i + w <? L) with true by (symmetry; apply Nat.ltb_lt; lia).
    rewrite (IH fuel (i + w)) by lia.
    f_equal; [f_equal; lia|].
    f_equal. rewrite <- !app_assoc.
    change (seq 0 (S (S m))) with (0 :: seq 1 (S m)).
    rewrite <- (seq_shift (S m) 0).
    cbn [map List.concat]. rewrite map_map, Nat.add_0_r, <- !app_assoc.
    do 3 f_equal. f_equal. apply map_ext; intros t.
    do 2 f_equal. lia.
Qed.

Lemma wrap_sequence_exact mem L w k b lg :
  0 < w -> 0 < k -> L = k * w ->
  wrap_sequence mem L w (mkState b lg [])
  = (true, mkState (b ++ List.concat (map (fun t => read mem (t * w) w ++ [NL]) (seq 0 k))
                      ++ read mem ((k - 1) * w) w ++ [NL]) lg []).
Proof.
  intros Hw Hk HL. destruct k as [|k]; [lia|].
  unfold wrap_sequence, bind at 1.
  rewrite (wrap_loop_exact _ _ _ _ k) by (simpl in *; nia).
  simpl (0 + _).
  replace (k * w <? L) with true by (symmetry; apply Nat.ltb_lt; simpl in *; lia).
  unfold bind; rewrite !append_no_fail.
  replace (L - k * w) with w by (simpl in *; lia).
  replace (S k - 1) with k by lia.
  rewrite <- !app_assoc. reflexivity.
Qed.

(** C4: for every sequence whose length is [k * w] with [k >= 1] and
    [w >= 1], and no write failure, the buffer receives the header, the
    [k] lines of [w] bytes, and then the last line a second time. *)
Theorem exact_multiple_duplicates_last_line E filename_s scaffold_name_s fai sq w k b lg :
  0 < w -> 0 < k -> List.length sq = k * w ->
  fai_load E filename_s = Some fai ->
  fai_fetch fai scaffold_name_s = Some sq ->
  GetScaffoldData E filename_s scaffold_name_s (Z.of_nat w) (mkState b lg [])
  = (true, mkState (b ++ header scaffold_name_s
                      ++ List.concat (map (fun t => read sq (t * w) w ++ [NL]) (seq 0 k))
                      ++ read sq ((k - 1) * w) w ++ [NL])
                   (lg ++ [FaiLoad; FaiDestroy]) []).
Proof.
  intros Hw Hk Hlen Hload Hfetch.
  rewrite (GetScaffoldData_loaded _ _ _ _ _ _ Hload); simpl.
  unfold format_scaffold, bind at 1.
  rewrite AppendStrings_no_fail, header_concat, Hfetch.
  replace (0 <? Z.of_nat w)%Z with true by (symmetry; apply Z.ltb_lt; lia).
  rewrite Nat2Z.id, (wrap_sequence_exact _ _ _ k) by lia.
  unfold fetched_block.
  rewrite (read_app sq)
    by (rewrite Hlen; destruct k as [|k']; [lia|]; rewrite Nat.sub_succ, Nat.sub_0_r; simpl; lia).
  rewrite (map_ext_in (fun t => read (sq ++ NUL :: heap_after E) (t * w) w ++ [NL])
                      (fun t => read sq (t * w) w ++ [NL])).
  - unfold header; cbn [buf fai_log append_fails]; rewrite <- !app_assoc. reflexivity.
  - intros t Ht. apply in_seq in Ht. rewrite read_app; [reflexivity|]. nia.
Qed.

Lemma exact_multiple_duplicates_last_line_witness :
  GetScaffoldData (one_env "s" (bytes_of "ACGT")) (Some "/s.fa"%string) "s"
    (Z.of_nat 2) (mkState [] [] [])
  = (true, mkState ([] ++ header "s"
                      ++ List.concat (map (fun t => read (bytes_of "ACGT") (t * 2) 2 ++ [NL]) (seq 0 2))
                      ++ read (bytes_of "ACGT") ((2 - 1) * 2) 2 ++ [NL])
                   ([] ++ [FaiLoad; FaiDestroy]) []).
Proof.
  apply (exact_multiple_duplicates_last_line (one_env "s" (bytes_of "ACGT"))
           (Some "/s.fa"%string) "s" [("s"%string, bytes_of "ACGT")]);
    [lia | lia | reflexivity | reflexivity | reflexivity].
Defined.

(** ** More of [GetScaffoldData] *)

Lemma ret_buf_grows {A} (a : A) : buf_grows (ret a).
Proof. intros s; exists []; now rewrite app_nil_r. Qed.

Lemma bind_buf_grows {A B} (m : M A) (f : A -> M B) :
  buf_grows m -> (forall a, buf_grows (f a)) -> buf_grows (bind m f).
Proof.
  intros Hm Hf s; unfold bind.
  destruct (Hm s) as [x Hx]; destruct (m s) as [a s']; simpl in *.
  destruct (Hf a s') as [y Hy]. exists (x ++ y). now rewrite Hy, Hx, app_assoc.
Qed.

Lemma append_buf_grows d : buf_grows (AppendToByteBuffer d).
Proof.
  intros s; unfold AppendToByteBuffer.
  destruct (append_fails s) as [|[|] ?]; simpl;
    [exists d | exists [] ; now rewrite app_nil_r | exists d]; reflexivity.
Qed.

Lemma log_buf_grows e : buf_grows (log_fai e).
Proof. intros s; exists []; simpl; now rewrite app_nil_r. Qed.

Create HintDb grows.
#[local] Hint Resolve ret_buf_grows bind_buf_grows append_buf_grows log_buf_grows : grows.

Lemma AppendStrings_buf_grows ps : buf_grows (AppendStringsToByteBuffer ps).
Proof.
  induction ps as [|p ps IH]; simpl; auto with grows.
  apply bind_buf_grows; auto with grows; intros [|]; auto with grows.
Qed.

#[local] Hint Resolve AppendStrings_buf_grows : grows.

Lemma wrap_loop_buf_grows fuel mem L w i : buf_grows (wrap_loop fuel mem L w i).
Proof.
  revert i; induction fuel as [|fuel IH]; intros i; simpl; auto with grows.
  apply bind_buf_grows; auto with grows; intros [|]; auto with grows.
  apply bind_buf_grows; auto with grows; intros [|]; auto with grows.
  destruct (i + w <? L); auto with grows.
Qed.

Lemma format_scaffold_buf_grows E fai n w : buf_grows (format_scaffold E fai n w).
Proof.
  unfold format_scaffold; apply bind_buf_grows; auto with grows.
  intros [|]; auto with grows.
  destruct (fai_fetch fai n); auto with grows.
  destruct (0 <? w)%Z; auto with grows.
  unfold wrap_sequence; apply bind_buf_grows; [apply wrap_loop_buf_grows|].
  intros [[|] i]; auto with grows.
  destruct (i <? List.length b); auto with grows.
  apply bind_buf_grows; auto with grows; intros [|]; auto with grows.
Qed.

(** [GetScaffoldData] only appends to the caller's buffer: whatever the
    outcome, the buffer it leaves starts with the buffer it was given. *)
Theorem GetScaffoldData_appends_only E filename_s scaffold_name_s break_index s :
  exists sfx,
    buf (snd (GetScaffoldData E filename_s scaffold_name_s break_index s)) = buf s ++ sfx.
Proof.
  unfold GetScaffoldData.
  destruct (fai_load E filename_s) as [fai|]; [|exists []; simpl; now rewrite app_nil_r].
  revert s; apply bind_buf_grows; auto with grows; intros _.
  apply bind_buf_grows; [apply format_scaffold_buf_grows|]; auto with grows.
Qed.

(** When the scaffold is not in the index, [GetScaffoldData] fails but
    leaves the header line it wrote (its three strings appended) in the
    buffer, so the caller sees a partial record, and the index is
    released. *)
Theorem GetScaffoldData_scaffold_not_found E filename_s scaffold_name_s break_index fai
  b lg fails :
  fai_load E filename_s = Some fai ->
  fai_fetch fai scaffold_name_s = None ->
  GetScaffoldData E filename_s scaffold_name_s break_index
    (mkState b lg (false :: false :: false :: fails))
  = (false, mkState (b ++ header scaffold_name_s) (lg ++ [FaiLoad; FaiDestroy]) fails).
Proof.
  intros Hload Hfetch.
  rewrite (GetScaffoldData_loaded _ _ _ _ _ _ Hload); simpl.
  unfold format_scaffold, bind at 1; simpl. rewrite Hfetch; simpl.
  unfold header; now rewrite <- !app_assoc.
Qed.

Lemma GetScaffoldData_scaffold_not_found_witness :
  GetScaffoldData wheat_env (Some "/data/wheatA.fa"%string) "chr9" 60
    (mkState (bytes_of "kept") [] [false; false; false; true])
  = (false, mkState (bytes_of "kept" ++ header "chr9") ([] ++ [FaiLoad; FaiDestroy]) [true]).
Proof.
  apply (GetScaffoldData_scaffold_not_found wheat_env _ _ _
           [("chr1A"%string, chr1A_seq)]); reflexivity.
Defined.

(** When the header write fails at its string number [p] (0 for ">", 1
    for the scaffold name, 2 for the newline), [GetScaffoldData] fails and
    the buffer keeps the strings appended before the failure: nothing,
    ">" or ">" followed by the name. The index is released. *)
Theorem GetScaffoldData_header_write_failure E filename_s scaffold_name_s break_index fai
  b lg p fails :
  fai_load E filename_s = Some fai ->
  p < 3 ->
  GetScaffoldData E filename_s scaffold_name_s break_index
    (mkState b lg (repeat false p ++ true :: fails))
  = (false, mkState (b ++ List.concat (firstn p (header_pieces scaffold_name_s)))
                    (lg ++ [FaiLoad; FaiDestroy]) fails).
Proof.
  intros Hload Hp.
  rewrite (GetScaffoldData_loaded _ _ _ _ _ _ Hload).
  destruct p as [|[|[|p]]]; [| | |lia];
    unfold format_scaffold, bind; simpl; now rewrite ?app_nil_r, <- ?app_assoc.
Qed.

Lemma GetScaffoldData_header_write_failure_witness :
  GetScaffoldData wheat_env (Some "/data/wheatA.fa"%string) "chr1A" 10
    (mkState [] [] (repeat false 1 ++ [true]))
  = (false, mkState ([] ++ List.concat (firstn 1 (header_pieces "chr1A")))
                    ([] ++ [FaiLoad; FaiDestroy]) []).
Proof.
  apply (GetScaffoldData_header_write_failure wheat_env _ _ _
           [("chr1A"%string, chr1A_seq)]); [reflexivity | lia].
Defined.

(** With no write failure, a loop started at [i] that advances [m] times
    (the last block starting at [i + m * w], the first whose end reaches
    [seq_len]) writes [m + 1] full-width blocks. *)
Lemma wrap_loop_general mem L w lg : forall m fuel i b,
  m < fuel -> (i + m * w < L \/ m = 0) -> L <= i + S m * w -> 0 < w ->
  wrap_loop fuel mem L w i (mkState b lg [])
  = ((true, i + m * w),
     mkState (b ++ List.concat (map (fun t => read mem (i + t * w) w ++ [NL]) (seq 0 (S m))))
             lg []).
Proof.
  induction m as [|m IH]; intros fuel i b Hf Hlt HL Hw;
    (destruct fuel as [|fuel]; [lia|]); simpl wrap_loop;
    unfold bind; rewrite !append_no_fail.
  - replace (i + w <? L) with false by (symmetry; apply Nat.ltb_ge; lia).
    unfold ret; simpl. rewrite Nat.add_0_r, !app_nil_r, !app_assoc. reflexivity.
  - replace (i + w <? L) with true by (symmetry; apply Nat.ltb_lt; simpl in *; lia).
    rewrite (IH fuel (i + w)) by (simpl in *; lia).
    f_equal; [f_equal; lia|].
    f_equal. rewrite <- !app_assoc.
    change (seq 0 (S (S m))) with (0 :: seq 1 (S m)).
    rewrite <- (seq_shift (S m) 0).
    cbn [map List.concat]. rewrite map_map, Nat.add_0_r, <- !app_assoc.
    do 4 f_equal. apply map_ext; intros t.
    do 2 f_equal. lia.
Qed.

(** The wrapped output, when the C code stays within defined behaviour:
    for a non-empty sequence of length [L], wrap width [w >= 1] with
    [L + w <= INT_MAX] (no [int] overflow in [i + break_index]) and no
    write failure, let [m = (L - 1) / w]. When the last full-width read
    ends inside the fetched string and its NUL terminator
    ([(m + 1) * w <= L + 1], that is [w] divides [L] or [L + 1]), the
    buffer receives the header, [m + 1] lines of [w] bytes read from
    [sq ++ [NUL]] at offsets [0, w, ..., m * w], then the [L - m * w]
    bytes from offset [m * w] (the last block again) and a newline. *)
Theorem GetScaffoldData_wrapped_output E filename_s scaffold_name_s fai sq w b lg :
  0 < w -> 0 < List.length sq ->
  (Z.of_nat (List.length sq) + Z.of_nat w <= 2147483647)%Z ->
  S ((List.length sq - 1) / w) * w <= S (List.length sq) ->
  fai_load E filename_s = Some fai ->
  fai_fetch fai scaffold_name_s = Some sq ->
  let L := List.length sq in
  let m := (L - 1) / w in
  GetScaffoldData E filename_s scaffold_name_s (Z.of_nat w) (mkState b lg [])
  = (true, mkState (b ++ header scaffold_name_s
                      ++ List.concat (map (fun t => read (sq ++ [NUL]) (t * w) w ++ [NL])
                                          (seq 0 (S m)))
                      ++ read sq (m * w) (L - m * w) ++ [NL])
                   (lg ++ [FaiLoad; FaiDestroy]) []).
Proof.
  intros Hw HL _ Hin Hload Hfetch L m.
  fold L m in Hin.
  assert (Hdm := Nat.div_mod (L - 1) w ltac:(lia)).
  assert (Hmod := Nat.mod_upper_bound (L - 1) w ltac:(lia)).
  fold m in Hdm.
  assert (Hm1 : m * w < L) by nia.
  assert (Hm2 : L <= S m * w) by (simpl; nia).
  rewrite (GetScaffoldData_loaded _ _ _ _ _ _ Hload); simpl.
  unfold format_scaffold, bind at 1.
  rewrite AppendStrings_no_fail, header_concat, Hfetch.
  replace (0 <? Z.of_nat w)%Z with true by (symmetry; apply Z.ltb_lt; lia).
  rewrite Nat2Z.id.
  unfold wrap_sequence, bind at 1.
  fold L. rewrite (wrap_loop_general _ _ _ _ m) by (simpl in *; nia).
  simpl (0 + _).
  replace (m * w <? L) with true by (symmetry; apply Nat.ltb_lt; lia).
  unfold bind; rewrite !append_no_fail.
  unfold fetched_block at 2; rewrite (read_app sq) by lia.
  rewrite (map_ext_in (fun t => read (fetched_block E sq) (t * w) w ++ [NL])
                      (fun t => read (sq ++ [NUL]) (t * w) w ++ [NL])).
  - unfold header; cbn [buf fai_log append_fails seq map List.concat].
    rewrite <- !app_assoc. reflexivity.
  - intros t Ht. apply in_seq in Ht.
    unfold fetched_block. replace (sq ++ NUL :: heap_after E)
      with ((sq ++ [NUL]) ++ heap_after E) by now rewrite <- app_assoc.
    rewrite read_app; [reflexivity|].
    rewrite length_app; simpl; fold L. simpl in Hin. nia.
Qed.

Lemma GetScaffoldData_wrapped_output_witness :
  GetScaffoldData (one_env "s" (bytes_of "ACG")) (Some "/s.fa"%string) "s" (Z.of_nat 2)
    (mkState [] [] [])
  = (true, mkState ([] ++ header "s"
                      ++ List.concat (map (fun t => read (bytes_of "ACG" ++ [NUL]) (t * 2) 2 ++ [NL])
                                          (seq 0 (S ((3 - 1) / 2))))
                      ++ read (bytes_of "ACG") (((3 - 1) / 2) * 2) (3 - ((3 - 1) / 2) * 2)
                      ++ [NL])
                   ([] ++ [FaiLoad; FaiDestroy]) []).
Proof.
  apply (GetScaffoldData_wrapped_output (one_env "s" (bytes_of "ACG")) _ _
           [("s"%string, bytes_of "ACG")]);
    [lia | simpl; lia | simpl; lia | vm_compute; lia | reflexivity | reflexivity].
Defined.

(** ** Configuration *)

Lemma index_data_of_index_file_json b f :
  index_data_of_json (index_file_json b f) = mkIndexData b f.
Proof. destruct b, f; reflexivity. Qed.

(** Configuration round trip: when "index_files" is an array of entry
    objects and the array of [IndexData] is allocated,
    [GetSamToolsServiceConfig] reads back each entry's Blast database and
    Fasta file (NULL where the key is absent), in order; when
    [AllocMemoryArray] returns NULL it fails. *)
Theorem GetSamToolsServiceConfig_roundtrip AllocMemoryArray config entries :
  json_object_get config "index_files" =
    Some (JArray (map (fun d => index_file_json (id_blast_db_name_s d)
                                                (id_fasta_filename_s d)) entries)) ->
  GetSamToolsServiceConfig AllocMemoryArray (Some config)
  = if AllocMemoryArray (List.length entries) then Some entries else None.
Proof.
  intros H; simpl; rewrite H, length_map.
  destruct (AllocMemoryArray (List.length entries)); [|reflexivity].
  rewrite map_map. f_equal. clear H.
  induction entries as [|[b f] rest IH]; cbn [map]; [reflexivity|].
  rewrite IH. cbn [id_blast_db_name_s id_fasta_filename_s].
  now rewrite index_data_of_index_file_json.
Qed.

Lemma GetSamToolsServiceConfig_roundtrip_witness :
  GetSamToolsServiceConfig (fun n => n <=? 16)
    (Some (JObject [("service"%string, JString "SamTools");
                    ("index_files"%string,
                     JArray [index_file_json (Some "wheatA"%string) (Some "/data/wheatA.fa"%string);
                             index_file_json None (Some "/data/b.fa"%string)])]))
  = if 2 <=? 16
    then Some [mkIndexData (Some "wheatA"%string) (Some "/data/wheatA.fa"%string);
               mkIndexData None (Some "/data/b.fa"%string)]
    else None.
Proof.
  apply (GetSamToolsServiceConfig_roundtrip (fun n => n <=? 16) _
           [mkIndexData (Some "wheatA"%string) (Some "/data/wheatA.fa"%string);
            mkIndexData None (Some "/data/b.fa"%string)]).
  reflexivity.
Defined.

(** ** Resolution bounds and the offered options *)

(** The entry [GetSelectedIndexData] returns lies inside the registry. *)
Theorem GetSelectedIndexData_in_bounds entries index_param k :
  GetSelectedIndexData entries index_param = Some k -> k < List.length entries.
Proof.
  destruct index_param as [[r|]|]; simpl; try discriminate.
  intros H; apply scan_index_data_first in H as (e & He & _).
  apply nth_error_Some; congruence.
Qed.

Lemma GetSelectedIndexData_in_bounds_witness :
  0 < List.length wheat_registry.
Proof.
  apply (GetSelectedIndexData_in_bounds wheat_registry (Some (Some "wheatA"%string))).
  reflexivity.
Defined.

(** If entry [k] matches [r] on either key, the scan stops at [k] or at
    an earlier entry. *)
Lemma scan_index_data_le r entries k e :
  nth_error entries k = Some e ->
  (id_fasta_filename_s e = Some r \/ id_blast_db_name_s e = Some r) ->
  exists j, j <= k /\ scan_index_data r entries = Some j.
Proof.
  revert k; induction entries as [|d rest IH]; intros k He Hm;
    [destruct k; discriminate|].
  simpl.
  destruct (opt_str_eqb (id_fasta_filename_s d) r) eqn:Hf; [exists 0; split; [lia|reflexivity]|].
  destruct (opt_str_eqb (id_blast_db_name_s d) r) eqn:Hb; [exists 0; split; [lia|reflexivity]|].
  destruct k as [|k].
  - simpl in He; injection He as <-.
    apply opt_str_eqb_false in Hf, Hb. destruct Hm; contradiction.
  - destruct (IH k He Hm) as (j & Hj & Hs). exists (S j); split; [lia|].
    now rewrite Hs.
Qed.

Lemma add_index_options_map S entries fails opts :
  add_index_options S entries fails = Some opts ->
  opts = map (fun d => (id_fasta_filename_s d, option_description S d)) entries.
Proof.
  revert fails opts; induction entries as [|d rest IH]; intros fails opts H; simpl in H.
  - now injection H as <-.
  - destruct fails as [|[|] fails'];
      [|discriminate|];
      (destruct (add_index_options S rest _) as [o|] eqn:Ho; [|discriminate]);
      simpl in H; injection H as <-; simpl; f_equal; eapply IH; exact Ho.
Qed.

Lemma SetUpIndexesParamater_inv S entries p :
  SetUpIndexesParamater S entries = Some p ->
  exists opts, add_index_options S entries (option_add_fails S) = Some opts /\
    ip_options p = opts ++ paired_options S /\
    ip_default p = match entries with d0 :: _ => id_blast_db_name_s d0 | [] => None end.
Proof.
  unfold SetUpIndexesParamater.
  destruct entries as [|d0 rest]; cbv beta iota; [discriminate|].
  destruct (param_create_ok S); [|discriminate].
  destruct (add_index_options S (d0 :: rest) (option_add_fails S)) as [opts|] eqn:Hadd;
    [|discriminate].
  intros H; injection H as <-. exists opts; simpl; auto.
Qed.

(** The option [SetUpIndexesParamater] offers for local entry [k] is
    entry [k]'s Fasta file with that entry's description. Sent back as the
    index parameter, a present Fasta file [f] resolves to entry [k] or to
    an earlier one, and to entry [k] exactly when no earlier entry has [f]
    as its Fasta file or Blast database. *)
Theorem SetUpIndexesParamater_options_resolve S entries p k e :
  SetUpIndexesParamater S entries = Some p ->
  nth_error entries k = Some e ->
  nth_error (ip_options p) k = Some (id_fasta_filename_s e, option_description S e) /\
  forall f, id_fasta_filename_s e = Some f ->
  exists j, GetSelectedIndexData entries (Some (Some f)) = Some j /\ j <= k /\
    (j = k <-> forall i e', i < k -> nth_error entries i = Some e' ->
        id_fasta_filename_s e' <> Some f /\ id_blast_db_name_s e' <> Some f).
Proof.
  intros Hset He.
  destruct (SetUpIndexesParamater_inv S entries p Hset) as (opts & Hadd & Hopts & _).
  assert (Hk : k < List.length entries) by (apply nth_error_Some; congruence).
  apply add_index_options_map in Hadd; subst opts.
  split.
  - rewrite Hopts, nth_error_app1 by (rewrite length_map; exact Hk).
    now rewrite nth_error_map, He.
  - intros f Hf.
    destruct (scan_index_data_le f entries k e He (or_introl Hf)) as (j & Hj & Hs).
    exists j; split; [exact Hs|]; split; [exact Hj|].
    apply scan_index_data_first in Hs as (e' & He' & Hm & Hfirst).
    split.
    + intros ->; exact Hfirst.
    + intros Hnone.
      destruct (Nat.lt_ge_cases j k) as [Hlt|]; [|lia].
      destruct (Hnone j e' Hlt He') as [H1 H2]. destruct Hm; contradiction.
Qed.

(** Two entries sharing the Fasta file "/x.fa": the option of entry 1
    resolves to entry 0. *)
Lemma SetUpIndexesParamater_options_resolve_witness :
  nth_error [(Some "/x.fa"%string, Some "b"%string); (Some "/x.fa"%string, Some "a"%string)] 1
    = Some (id_fasta_filename_s (mkIndexData (Some "a"%string) (Some "/x.fa"%string)),
            option_description wheat_setup (mkIndexData (Some "a"%string) (Some "/x.fa"%string)))
  /\ forall f, id_fasta_filename_s (mkIndexData (Some "a"%string) (Some "/x.fa"%string)) = Some f ->
  exists j, GetSelectedIndexData [mkIndexData (Some "b"%string) (Some "/x.fa"%string);
                                  mkIndexData (Some "a"%string) (Some "/x.fa"%string)]
              (Some (Some f)) = Some j /\ j <= 1 /\
    (j = 1 <-> forall i e', i < 1 ->
        nth_error [mkIndexData (Some "b"%string) (Some "/x.fa"%string);
                   mkIndexData (Some "a"%string) (Some "/x.fa"%string)] i = Some e' ->
        id_fasta_filename_s e' <> Some f /\ id_blast_db_name_s e' <> Some f).
Proof.
  apply (SetUpIndexesParamater_options_resolve wheat_setup
           [mkIndexData (Some "b"%string) (Some "/x.fa"%string);
            mkIndexData (Some "a"%string) (Some "/x.fa"%string)]
           (mkIndexesParameter (Some "b"%string)
              [(Some "/x.fa"%string, Some "b"%string); (Some "/x.fa"%string, Some "a"%string)])
           1);
    reflexivity.
Defined.

(** The default value of the index parameter (the first entry's Blast
    database, when present) always resolves to the first entry. *)
Theorem SetUpIndexesParamater_default_resolves S entries p d :
  SetUpIndexesParamater S entries = Some p ->
  ip_default p = Some d ->
  GetSelectedIndexData entries (Some (Some d)) = Some 0.
Proof.
  intros Hset Hd.
  destruct (SetUpIndexesParamater_inv S entries p Hset) as (opts & _ & _ & Hdef).
  destruct entries as [|d0 rest]; [discriminate|].
  rewrite Hdef in Hd; simpl.
  destruct (opt_str_eqb (id_fasta_filename_s d0) d); [reflexivity|].
  rewrite Hd; simpl; now rewrite String.eqb_refl.
Qed.

Lemma SetUpIndexesParamater_default_resolves_witness :
  GetSelectedIndexData wheat_registry (Some (Some "wheatA"%string)) = Some 0.
Proof.
  apply (SetUpIndexesParamater_default_resolves wheat_setup wheat_registry
           (mkIndexesParameter (Some "wheatA"%string)
              [(Some "/data/wheatA.fa"%string, Some "wheatA"%string)]));
    reflexivity.
Defined.

(** ** The line-break parameter and the job's payload *)

Lemma format_scaffold_nonpositive E fai n bi :
  (bi <= 0)%Z -> format_scaffold E fai n bi = format_scaffold E fai n 0.
Proof.
  intros H; unfold format_scaffold.
  replace (0 <? bi)%Z with false by (symmetry; apply Z.ltb_ge; lia).
  reflexivity.
Qed.

(** A line-break value of [2^31] or more, read as [uint32] and passed as
    the [int break_index], becomes negative: [GetScaffoldData] then
    behaves exactly as with width 0 and writes the sequence unwrapped. *)
Theorem GetScaffoldData_large_line_break_unwrapped E filename_s scaffold_name_s v s :
  (2 ^ 31 <= v < 2 ^ 32)%Z ->
  GetScaffoldData E filename_s scaffold_name_s (int_of_uint32 v) s
  = GetScaffoldData E filename_s scaffold_name_s 0 s.
Proof.
  intros Hv; unfold GetScaffoldData.
  destruct (fai_load E filename_s) as [fai|]; [|reflexivity].
  rewrite (format_scaffold_nonpositive E fai scaffold_name_s); [reflexivity|].
  unfold int_of_uint32.
  replace (v <? 2 ^ 31)%Z with false by (symmetry; apply Z.ltb_ge; lia). lia.
Qed.

Lemma GetScaffoldData_large_line_break_unwrapped_witness :
  GetScaffoldData wheat_env (Some "/data/wheatA.fa"%string) "chr1A"
    (int_of_uint32 4294967295) empty_state
  = GetScaffoldData wheat_env (Some "/data/wheatA.fa"%string) "chr1A" 0 empty_state.
Proof.
  apply GetScaffoldData_large_line_break_unwrapped. lia.
Defined.

(** The job recorded for a locally resolved request either succeeded,
    with no error and exactly one result: the buffer [GetScaffoldData]
    filled for the resolved entry's Fasta file, the job's scaffold and the
    requested (or default) line break, read as a C string (up to its first
    NUL byte); or it ended Failed with no result and one error message,
    none when [AddGeneralErrorMessageToServiceJob] fails. *)
Theorem RunSamToolsService_job_payload entries R jobs j k sel :
  RunSamToolsService entries R = Some jobs -> In j jobs ->
  GetSelectedIndexData entries (index_param R) = Some k ->
  nth_error entries k = Some sel ->
  (exists st,
     GetScaffoldData (fetch_env_of R) (id_fasta_filename_s sel) (sj_name j)
       (line_break_of R) (mkState [] [] (fetch_oracle R)) = (true, st) /\
     sj_results j = [c_string (buf st)] /\ sj_errors j = [] /\
     sj_statuses j = [OS_STARTED; OS_FAILED; OS_SUCCEEDED])
  \/ (sj_results j = [] /\
      List.length (sj_errors j) = (if add_error_ok R then 1 else 0) /\
      sj_statuses j = [OS_STARTED; OS_FAILED]).
Proof.
  unfold RunSamToolsService; intros Hrun Hin Hsel Hnth.
  destruct (jobset_alloc_ok R); [|discriminate].
  rewrite Hsel, Hnth in Hrun.
  destruct (scaffold_param R) as [[sc|]|];
    [|injection Hrun as <-; destruct Hin|injection Hrun as <-; destruct Hin].
  destruct (buffer_alloc_ok R && job_create_ok R);
    [|injection Hrun as <-; destruct Hin].
  injection Hrun as <-. destruct Hin as [<-|[]].
  unfold run_job.
  destruct (GetScaffoldData (fetch_env_of R) (id_fasta_filename_s sel) sc (line_break_of R)
              (mkState [] [] (fetch_oracle R))) as [[|] st] eqn:Hget.
  - destruct (json_sequence_ok R && result_json_ok R).
    + destruct (add_result_ok R).
      * left; exists st; simpl; auto.
      * right; destruct (add_error_ok R); simpl; auto.
    + right; destruct (add_error_ok R); simpl; auto.
  - right; destruct (add_error_ok R); simpl; auto.
Qed.

Lemma RunSamToolsService_job_payload_witness :
  exists st,
    GetScaffoldData (one_env "s" (bytes_of "ACG")) (Some "/s.fa"%string) "s" 2
      (mkState [] [] []) = (true, st) /\
    sj_results (run_job acg_request (hd (mkIndexData None None) acg_registry)
                  "s" (mkServiceJob "s" [] [] [])) = [c_string (buf st)] /\
    sj_errors (run_job acg_request (hd (mkIndexData None None) acg_registry)
                 "s" (mkServiceJob "s" [] [] [])) = [] /\
    sj_statuses (run_job acg_request (hd (mkIndexData None None) acg_registry)
                   "s" (mkServiceJob "s" [] [] [])) = [OS_STARTED; OS_FAILED; OS_SUCCEEDED].
Proof.
  destruct (RunSamToolsService_job_payload acg_registry acg_request
              _ (run_job acg_request (hd (mkIndexData None None) acg_registry)
                   "s" (mkServiceJob "s" [] [] [])) 0
              (hd (mkIndexData None None) acg_registry)
              eq_refl (or_introl eq_refl) eq_refl eq_refl) as [H|(_ & _ & H)];
    [exact H | vm_compute in H; discriminate].
Defined.

(** On "ACG" at width 2 every read stays inside the fetched string; the
    second line is "G" followed by the NUL terminator, so the job's result,
    read as a C string, stops after "G" and loses the tail line "G\n". *)
Theorem RunSamToolsService_result_cut_at_nul :
  GetScaffoldData (one_env "s" (bytes_of "ACG")) (Some "/s.fa"%string) "s" 2 (mkState [] [] [])
  = (true, mkState (header "s" ++ bytes_of "AC" ++ [NL] ++ bytes_of "G" ++ [NUL; NL]
                    ++ bytes_of "G" ++ [NL]) [FaiLoad; FaiDestroy] [])
  /\ RunSamToolsService acg_registry acg_request
     = Some [mkServiceJob "s" [OS_STARTED; OS_FAILED; OS_SUCCEEDED] []
               [header "s" ++ bytes_of "AC" ++ [NL] ++ bytes_of "G"]].
Proof. split; vm_compute; reflexivity. Qed.
